(** * ForeignSyncControl.vue and the watchdog start script

    A shallow embedding of the Vue component
    [frontend/src/components/Sync/ForeignSyncControl.vue] (its script block
    and the part of the template that depends on the reactive state) and of
    the shell script that starts the backend under the watchdog. *)

From Stdlib Require Import String List ZArith.
From Stdlib Require Import DecimalString.
Import ListNotations.
Open Scope string_scope.
Open Scope Z_scope.

(** ** A few JavaScript notions the component relies on *)

Module Js.

(** What the engine and the host decide, not the component: the text of
    [Date.prototype.toLocaleString] for a locale and a time string, and the
    text of the [TypeError] raised when a property is read on
    [undefined]. *)
Record Runtime : Type := {
  toLocaleString : string -> string -> string;
  cannotReadProperty : string -> string
}.

(** An error object as the [catch] clauses use it: only [err.message]. *)
Record Error : Type := { err_message : option string }.

(** [String(n)] for an integral number. *)
Definition string_of_number (n : Z) : string :=
  NilEmpty.string_of_int (Z.to_int n).

(** [`${x}`] for an optional string: [undefined] is spelled out. *)
Definition tmpl_string (x : option string) : string :=
  match x with
  | Some s => s
  | None => "undefined"
  end.

(** [`${x}`] for an optional number. *)
Definition tmpl_number (x : option Z) : string :=
  match x with
  | Some n => string_of_number n
  | None => "undefined"
  end.

(** [x || 0] on an optional number: [undefined] and [0] are falsy. *)
Definition or_zero (x : option Z) : Z :=
  match x with
  | Some n => if n =? 0 then 0 else n
  | None => 0
  end.

(** Truthiness of an optional string: [undefined] and [''] are falsy. *)
Definition truthy_string (x : option string) : bool :=
  match x with
  | Some s => negb (String.eqb s "")
  | None => false
  end.

(** [x !== 'lit'] where [x] may be [undefined]. *)
Definition strict_neq (x : option string) (lit : string) : bool :=
  match x with
  | Some s => negb (String.eqb s lit)
  | None => true
  end.

End Js.

(** ** Data model *)

(** [interface SyncStatus]: every field is optional. *)
Record SyncStatus : Type := {
  job : option string;
  status : option string;
  total : option Z;
  inserted : option Z;
  updated : option Z;
  errors : option Z;
  finished_at : option string;
  message : option string
}.

(** The payload of the trigger-all endpoint, [{ hk, us }]. *)
Record ForeignPair : Type := {
  hk : option SyncStatus;
  us : option SyncStatus
}.

(** The response envelope [{ success, data?, message? }]. *)
Record Envelope (D : Type) : Type := {
  success : bool;
  data : option D;
  res_message : option string
}.
Arguments success {D} _.
Arguments data {D} _.
Arguments res_message {D} _.

(** How an awaited request settles. *)
Inductive Outcome (R : Type) : Type :=
| Resolved (r : R)
| Rejected (e : Js.Error).
Arguments Resolved {R} r.
Arguments Rejected {R} e.

(** The five refs of the component. [None] stands for [null] (and for an
    [undefined] assigned from a response without [data]). *)
Record State : Type := {
  hkStatus : option SyncStatus;
  usStatus : option SyncStatus;
  hkSyncing : bool;
  usSyncing : bool;
  allSyncing : bool
}.

Definition initial : State :=
  {| hkStatus := None; usStatus := None;
     hkSyncing := false; usSyncing := false; allSyncing := false |}.

(** ** Status helpers of the script block *)

Definition getStatusType (st : option string) : string :=
  match st with
  | Some s =>
      if String.eqb s "completed" then "success"
      else if String.eqb s "running" then "warning"
      else if String.eqb s "failed" then "danger"
      else if String.eqb s "never_run" then "info"
      else "info"
  | None => "info"
  end.

Definition getStatusText (st : option string) : string :=
  match st with
  | Some s =>
      if String.eqb s "completed" then "已完成"
      else if String.eqb s "running" then "同步中"
      else if String.eqb s "failed" then "失敗"
      else if String.eqb s "never_run" then "未執行"
      else "未知"
  | None => "未知"
  end.

Definition formatTime (rt : Js.Runtime) (time : option string) : string :=
  if negb (Js.truthy_string time) then ""
  else match time with
       | Some t => Js.toLocaleString rt "zh-TW" t
       | None => ""
       end.

(** ** Effects of the script block

    The async functions change the refs, show [ElMessage] toasts, write to
    the console, send requests and suspend at [await].  Vue re-renders in a
    microtask, that is once the running synchronous code has reached an
    [await] or its end; [rendered] keeps the ref values of each such pass. *)

Inductive Level : Type := Info | Success | Error.

Inductive Method : Type := GET | POST.

Record Body : Type := { force : bool }.

Record Request : Type := {
  method : Method;
  url : string;
  body : option Body
}.

Record World : Type := {
  refs : State;
  toasts : list (Level * string);
  console : list (string * Js.Error);
  sent : list Request;
  rendered : list State
}.

Definition boot (s : State) : World :=
  {| refs := s; toasts := []; console := []; sent := []; rendered := [] |}.

Inductive Completion (A : Type) : Type :=
| Normal (a : A)
| Throw (e : Js.Error).
Arguments Normal {A} a.
Arguments Throw {A} e.

Definition M (A : Type) : Type := World -> Completion A * World.

Definition ret {A} (a : A) : M A := fun w => (Normal a, w).

Definition bind {A B} (c : M A) (k : A -> M B) : M B :=
  fun w =>
    match c w with
    | (Normal a, w1) => k a w1
    | (Throw e, w1) => (Throw e, w1)
    end.

Definition throw {A} (e : Js.Error) : M A := fun w => (Throw e, w).

Declare Scope js_scope.
Delimit Scope js_scope with js.
Notation "x <- c ;; k" := (bind c (fun x => k))
  (at level 61, c at next level, right associativity) : js_scope.
Notation "c ;; k" := (bind c (fun _ => k))
  (at level 61, right associativity) : js_scope.
Open Scope js_scope.

(** [try { body } catch (err) { handler } finally { fin }]. *)
Definition try_catch_finally
  (body : M unit) (handler : Js.Error -> M unit) (fin : M unit) : M unit :=
  fun w =>
    let '(c, w1) :=
      match body w with
      | (Throw e, w0) => handler e w0
      | done => done
      end in
    match fin w1 with
    | (Normal _, w2) => (c, w2)
    | (Throw e, w2) => (Throw e, w2)
    end.

(** [try { body } catch (err) { handler }]. *)
Definition try_catch (body : M unit) (handler : Js.Error -> M unit) : M unit :=
  fun w =>
    match body w with
    | (Throw e, w0) => handler e w0
    | done => done
    end.

Definition modify (f : State -> State) : M unit :=
  fun w =>
    (Normal tt,
     {| refs := f (refs w); toasts := toasts w; console := console w;
        sent := sent w; rendered := rendered w |}).

Definition set_hkStatus (v : option SyncStatus) : M unit :=
  modify (fun s =>
    {| hkStatus := v; usStatus := usStatus s; hkSyncing := hkSyncing s;
       usSyncing := usSyncing s; allSyncing := allSyncing s |}).

Definition set_usStatus (v : option SyncStatus) : M unit :=
  modify (fun s =>
    {| hkStatus := hkStatus s; usStatus := v; hkSyncing := hkSyncing s;
       usSyncing := usSyncing s; allSyncing := allSyncing s |}).

Definition set_hkSyncing (b : bool) : M unit :=
  modify (fun s =>
    {| hkStatus := hkStatus s; usStatus := usStatus s; hkSyncing := b;
       usSyncing := usSyncing s; allSyncing := allSyncing s |}).

Definition set_usSyncing (b : bool) : M unit :=
  modify (fun s =>
    {| hkStatus := hkStatus s; usStatus := usStatus s;
       hkSyncing := hkSyncing s; usSyncing := b;
       allSyncing := allSyncing s |}).

Definition set_allSyncing (b : bool) : M unit :=
  modify (fun s =>
    {| hkStatus := hkStatus s; usStatus := usStatus s;
       hkSyncing := hkSyncing s; usSyncing := usSyncing s;
       allSyncing := b |}).

Definition ElMessage (l : Level) (text : string) : M unit :=
  fun w =>
    (Normal tt,
     {| refs := refs w; toasts := toasts w ++ [(l, text)];
        console := console w; sent := sent w; rendered := rendered w |}).

Definition console_error (label : string) (err : Js.Error) : M unit :=
  fun w =>
    (Normal tt,
     {| refs := refs w; toasts := toasts w;
        console := console w ++ [(label, err)];
        sent := sent w; rendered := rendered w |}).

(** [request.get] and [request.post] of [@/api/request]: the request goes
    out, and the promise they return settles the way the backend (or the
    transport) decides, which is the [reply] argument. *)
Definition request_get {R} (path : string) (reply : Outcome R)
  : M (Outcome R) :=
  fun w =>
    (Normal reply,
     {| refs := refs w; toasts := toasts w; console := console w;
        sent := sent w ++ [{| method := GET; url := path; body := None |}];
        rendered := rendered w |}).

Definition request_post {R} (path : string) (b : Body) (reply : Outcome R)
  : M (Outcome R) :=
  fun w =>
    (Normal reply,
     {| refs := refs w; toasts := toasts w; console := console w;
        sent := sent w ++ [{| method := POST; url := path; body := Some b |}];
        rendered := rendered w |}).

(** [await p]: the function is suspended, the view is rendered from the
    refs as they stand, then the promise's value comes back or its rejection
    is thrown. *)
Definition await {R} (p : Outcome R) : M R :=
  fun w =>
    let w1 :=
      {| refs := refs w; toasts := toasts w; console := console w;
         sent := sent w; rendered := rendered w ++ [refs w] |} in
    match p with
    | Resolved r => (Normal r, w1)
    | Rejected e => (Throw e, w1)
    end.

(** The render passes of one call: those taken while it was suspended, and
    the one after it has run to its end. *)
Definition passes (op : M unit) (s : State) : list State :=
  let w := snd (op (boot s)) in rendered w ++ [refs w].

Definition after (op : M unit) (s : State) : World := snd (op (boot s)).

Section Component.

Variable rt : Js.Runtime.

(** [d.name] where [d] is [res.data]: a [TypeError] when the response
    carried no [data]. *)
Definition read {D A} (d : option D) (name : string) (get : D -> A) : M A :=
  match d with
  | Some x => ret (get x)
  | None => throw {| Js.err_message := Some (Js.cannotReadProperty rt name) |}
  end.

Definition fetchHKStatus (reply : Outcome (Envelope SyncStatus)) : M unit :=
  try_catch
    (p <- request_get "/api/sync/multi-source/hk/status" reply ;;
     res <- await p ;;
     if success res then set_hkStatus (data res) else ret tt)
    (fun err => console_error "獲取港股狀態失敗:" err).

Definition fetchUSStatus (reply : Outcome (Envelope SyncStatus)) : M unit :=
  try_catch
    (p <- request_get "/api/sync/multi-source/us/status" reply ;;
     res <- await p ;;
     if success res then set_usStatus (data res) else ret tt)
    (fun err => console_error "獲取美股狀態失敗:" err).

Definition syncHK (reply : Outcome (Envelope SyncStatus)) : M unit :=
  try_catch_finally
    (set_hkSyncing true ;;
     ElMessage Info "開始同步港股數據..." ;;
     p <- request_post "/api/sync/multi-source/hk/sync"
            {| force := false |} reply ;;
     res <- await p ;;
     if success res then
       set_hkStatus (data res) ;;
       n <- read (data res) "total" total ;;
       ElMessage Success ("港股同步完成: " ++ Js.tmpl_number n ++ " 支")
     else
       ElMessage Error ("港股同步失敗: " ++ Js.tmpl_string (res_message res)))
    (fun err =>
       ElMessage Error ("港股同步失敗: " ++ Js.tmpl_string (Js.err_message err)))
    (set_hkSyncing false).

Definition syncUS (reply : Outcome (Envelope SyncStatus)) : M unit :=
  try_catch_finally
    (set_usSyncing true ;;
     ElMessage Info "開始同步美股數據..." ;;
     p <- request_post "/api/sync/multi-source/us/sync"
            {| force := false |} reply ;;
     res <- await p ;;
     if success res then
       set_usStatus (data res) ;;
       n <- read (data res) "total" total ;;
       ElMessage Success ("美股同步完成: " ++ Js.tmpl_number n ++ " 支")
     else
       ElMessage Error ("美股同步失敗: " ++ Js.tmpl_string (res_message res)))
    (fun err =>
       ElMessage Error ("美股同步失敗: " ++ Js.tmpl_string (Js.err_message err)))
    (set_usSyncing false).

Definition syncAll (reply : Outcome (Envelope ForeignPair)) : M unit :=
  try_catch_finally
    (set_allSyncing true ;;
     ElMessage Info "開始同步港股和美股數據..." ;;
     p <- request_post "/api/sync/multi-source/foreign/sync"
            {| force := false |} reply ;;
     res <- await p ;;
     if success res then
       h <- read (data res) "hk" hk ;;
       set_hkStatus h ;;
       u <- read (data res) "us" us ;;
       set_usStatus u ;;
       ElMessage Success "港股和美股同步完成"
     else
       ElMessage Error ("同步失敗: " ++ Js.tmpl_string (res_message res)))
    (fun err =>
       ElMessage Error ("同步失敗: " ++ Js.tmpl_string (Js.err_message err)))
    (set_allSyncing false).

End Component.

(** ** The template

    Only what depends on the refs is kept: per market the status tag, the
    [market-stats] block under its [v-if], the [sync-time] line under its
    own [v-if] inside that block, and the three buttons with their
    [:loading] and [@click] bindings. *)

Inductive Handler : Type := OnSyncHK | OnSyncUS | OnSyncAll.

Record Tag : Type := { tag_type : string; tag_text : string }.

(** A [<span class="stat-value ...">{{ n }}</span>]. *)
Record StatValue : Type := { classes : list string; shown : string }.

Record MarketStats : Type := {
  stat_total : StatValue;
  stat_inserted : StatValue;
  stat_updated : StatValue;
  sync_time : option string
}.

Record Button : Type := {
  button_type : string;
  loading : bool;
  click : Handler;
  label : string
}.

Record MarketSection : Type := {
  market_title : string;
  tag : Tag;
  market_stats : option MarketStats;
  button : Button
}.

Record View : Type := {
  hk_section : MarketSection;
  us_section : MarketSection;
  all_button : Button
}.

(** The colour the scoped style gives a [stat-value] span through its
    second class ([&.success], [&.primary]). *)
Definition stat_value_color (v : StatValue) : option string :=
  if existsb (String.eqb "success") (classes v)
  then Some "var(--el-color-success)"
  else if existsb (String.eqb "primary") (classes v)
  then Some "var(--el-color-primary)"
  else None.

Section Template.

Variable rt : Js.Runtime.

(** [getStatusType(st?.status)] and [getStatusText(st?.status)]. *)
Definition status_of (st : option SyncStatus) : option string :=
  match st with
  | Some s => status s
  | None => None
  end.

Definition render_tag (st : option SyncStatus) : Tag :=
  {| tag_type := getStatusType (status_of st);
     tag_text := getStatusText (status_of st) |}.

(** [v-if="st && st.status !== 'never_run'"]. *)
Definition show_stats (st : option SyncStatus) : bool :=
  match st with
  | Some s => Js.strict_neq (status s) "never_run"
  | None => false
  end.

(** [v-if="st.finished_at"], inside the stats block. *)
Definition show_time (s : SyncStatus) : bool :=
  Js.truthy_string (finished_at s).

Definition render_stats (st : option SyncStatus) : option MarketStats :=
  match st with
  | Some s =>
      if show_stats st then
        Some {| stat_total :=
                  {| classes := ["stat-value"];
                     shown := Js.string_of_number (Js.or_zero (total s)) |};
                stat_inserted :=
                  {| classes := ["stat-value"; "success"];
                     shown := Js.string_of_number (Js.or_zero (inserted s)) |};
                stat_updated :=
                  {| classes := ["stat-value"; "primary"];
                     shown := Js.string_of_number (Js.or_zero (updated s)) |};
                sync_time :=
                  if show_time s
                  then Some ("完成時間: " ++ formatTime rt (finished_at s))
                  else None |}
      else None
  | None => None
  end.

Definition render (s : State) : View :=
  {| hk_section :=
       {| market_title := "港股 (AKShare)";
          tag := render_tag (hkStatus s);
          market_stats := render_stats (hkStatus s);
          button := {| button_type := "primary"; loading := hkSyncing s;
                       click := OnSyncHK; label := "同步港股" |} |};
     us_section :=
       {| market_title := "美股 (Alpha Vantage)";
          tag := render_tag (usStatus s);
          market_stats := render_stats (usStatus s);
          button := {| button_type := "primary"; loading := usSyncing s;
                       click := OnSyncUS; label := "同步美股" |} |};
     all_button :=
       {| button_type := "success"; loading := allSyncing s;
          click := OnSyncAll; label := "一鍵同步港股+美股" |} |}.

End Template.

(** ** The start script

    A small shell: simple commands whose words may hold variables and
    command substitutions, assignments, [exit], and [if ! c; then ... fi].
    What the commands themselves do is the host's business: it answers with
    an exit status and, for a substitution, with the text printed. *)

Module Sh.

Inductive Atom : Type :=
| Lit (s : string)
| Var (name : string).

(** A word of a substituted command. *)
Definition Inner : Type := list Atom.

Inductive Part : Type :=
| Plain (a : Atom)
| Subst (argv : list Inner).

Definition Word : Type := list Part.

Inductive Simple : Type :=
| Command (argv : list Word) (quiet : bool)
| Assign (name : string) (value : Word)
| Exit (code : Z).

Inductive Stmt : Type :=
| Do (c : Simple)
| IfNot (cond : Simple) (body : list Simple).

Record Host : Type := {
  exit_status : list string -> Z;
  stdout : list string -> string
}.

Definition Env : Type := list (string * string).

Fixpoint lookup (env : Env) (name : string) : string :=
  match env with
  | [] => ""
  | (k, v) :: rest => if String.eqb k name then v else lookup rest name
  end.

Definition expand_atom (env : Env) (a : Atom) : string :=
  match a with
  | Lit s => s
  | Var name => lookup env name
  end.

Definition expand_inner (env : Env) (w : Inner) : string :=
  String.concat "" (map (expand_atom env) w).

Definition expand_part (h : Host) (env : Env) (p : Part) : string :=
  match p with
  | Plain a => expand_atom env a
  | Subst argv => stdout h (map (expand_inner env) argv)
  end.

Definition expand (h : Host) (env : Env) (w : Word) : string :=
  String.concat "" (map (expand_part h env) w).

(** The commands run so far, oldest first, each with its expanded words. *)
Definition Trace : Type := list (list string).

Record Shell : Type := {
  env : Env;
  last : Z;
  trace : Trace
}.

Inductive Flow : Type :=
| Running (sh : Shell)
| Exited (code : Z) (tr : Trace).

Definition exec (h : Host) (c : Simple) (sh : Shell) : Flow :=
  match c with
  | Command argv _ =>
      let args := map (expand h (env sh)) argv in
      Running {| env := env sh; last := exit_status h args;
                 trace := (trace sh ++ [args])%list |}
  | Assign name value =>
      Running {| env := (name, expand h (env sh) value) :: env sh;
                 last := 0; trace := trace sh |}
  | Exit code => Exited code (trace sh)
  end.

Fixpoint exec_list (h : Host) (cs : list Simple) (sh : Shell) : Flow :=
  match cs with
  | [] => Running sh
  | c :: rest =>
      match exec h c sh with
      | Running sh1 => exec_list h rest sh1
      | Exited code tr => Exited code tr
      end
  end.

Definition exec_stmt (h : Host) (s : Stmt) (sh : Shell) : Flow :=
  match s with
  | Do c => exec h c sh
  | IfNot cond body =>
      match exec h cond sh with
      | Running sh1 =>
          if negb (last sh1 =? 0)
          then exec_list h body sh1
          else Running {| env := env sh1; last := 0; trace := trace sh1 |}
      | Exited code tr => Exited code tr
      end
  end.

Fixpoint exec_script (h : Host) (ss : list Stmt) (sh : Shell) : Flow :=
  match ss with
  | [] => Running sh
  | s :: rest =>
      match exec_stmt h s sh with
      | Running sh1 => exec_script h rest sh1
      | Exited code tr => Exited code tr
      end
  end.

(** Running a script file: the commands it ran and its exit status, which
    is the code of an [exit] or else the status of the last command. *)
Definition fresh (self : string) : Shell :=
  {| env := [("0", self)]; last := 0; trace := [] |}.

Definition run (h : Host) (self : string) (ss : list Stmt) : Trace * Z :=
  match exec_script h ss (fresh self) with
  | Running sh => (trace sh, last sh)
  | Exited code tr => (tr, code)
  end.

(** Whether the run ended at an [exit] of the script. *)
Definition left_by_exit (h : Host) (self : string) (ss : list Stmt) : bool :=
  match exec_script h ss (fresh self) with
  | Running _ => false
  | Exited _ _ => true
  end.

Definition exits_of_simple (c : Simple) : list Z :=
  match c with
  | Exit code => [code]
  | _ => []
  end.

(** Every [exit] written in a script, in the order of the text. *)
Definition exits_of (ss : list Stmt) : list Z :=
  flat_map (fun s =>
              match s with
              | Do c => exits_of_simple c
              | IfNot cond body =>
                  (exits_of_simple cond ++ flat_map exits_of_simple body)%list
              end) ss.

Definition lit (s : string) : Word := [Plain (Lit s)].

Definition docker_info : Simple :=
  Command [lit "docker"; lit "info"] true.

(** The script, statement by statement. *)
Definition start_watchdog : list Stmt :=
  [ Do (Command [lit "cd";
                 [Subst [[Lit "dirname"]; [Var "0"]]; Plain (Lit "/..")]]
                false);
    Do (Assign "PROJECT_DIR" [Subst [[Lit "pwd"]]]);
    Do (Command [lit "echo"; lit "🐕 啟動 Backend Watchdog..."] false);
    Do (Command [lit "echo";
                 [Plain (Lit "📍 項目目錄: "); Plain (Var "PROJECT_DIR")]]
                false);
    Do (Command [lit "echo"; lit ""] false);
    IfNot docker_info
      [ Command [lit "echo"; lit "❌ Docker 未運行！請先啟動 Docker Desktop"]
                false;
        Exit 1 ];
    Do (Command [lit "echo"; lit "🐳 啟動 Docker 服務 (MongoDB, Redis)..."]
                false);
    Do (Command [lit "docker-compose"; lit "up"; lit "-d";
                 lit "mongodb"; lit "redis"] false);
    Do (Command [lit "sleep"; lit "3"] false);
    Do (Command [lit "echo"; lit "🚀 啟動 Watchdog..."] false);
    Do (Command [lit "source"; lit ".venv/bin/activate"] false);
    Do (Command [lit "python"; lit "scripts/watchdog.py"] false) ].

(** What the script has run once the runtime check is done. *)
Definition prologue (h : Host) (self : string) : Trace :=
  [ ["cd"; stdout h ["dirname"; self] ++ "/.."];
    ["echo"; "🐕 啟動 Backend Watchdog..."];
    ["echo"; "📍 項目目錄: " ++ stdout h ["pwd"]];
    ["echo"; ""];
    ["docker"; "info"] ].

End Sh.

(** ** What the view shows of the two statuses *)

Definition displayed (rt : Js.Runtime) (s : State)
  : (Tag * option MarketStats) * (Tag * option MarketStats) :=
  let v := render rt s in
  ((tag (hk_section v), market_stats (hk_section v)),
   (tag (us_section v), market_stats (us_section v))).

(** A reply that is a failure: the request was rejected, or the envelope
    says [success: false]. *)
Definition failed {D} (reply : Outcome (Envelope D)) : bool :=
  match reply with
  | Resolved res => negb (success res)
  | Rejected _ => true
  end.

(** A logical failure carrying the backend's message [m]. *)
Definition logical_failure {D} (d : option D) (m : string)
  : Outcome (Envelope D) :=
  Resolved {| success := false; data := d; res_message := Some m |}.

(** A success envelope. *)
Definition succeeded {D} (d : option D) (m : option string)
  : Outcome (Envelope D) :=
  Resolved {| success := true; data := d; res_message := m |}.

(** The statuses a fetch is said to handle on failure: kept, silent, and
    logged. *)
Definition swallowed_and_logged (op : M unit) (s : State) : Prop :=
  hkStatus (refs (after op s)) = hkStatus s /\
  usStatus (refs (after op s)) = usStatus s /\
  toasts (after op s) = [] /\
  console (after op s) <> [].

Definition known_statuses : list string :=
  ["completed"; "running"; "failed"; "never_run"].

(** [null], or a status object whose [status] is ['never_run']. *)
Definition never_ran (st : option SyncStatus) : bool :=
  match st with
  | Some s =>
      match status s with
      | Some x => String.eqb x "never_run"
      | None => false
      end
  | None => true
  end.

(** A counter that [|| 0] replaces: absent, or zero. *)
Definition falsy_counter (n : option Z) : bool :=
  match n with
  | Some z => z =? 0
  | None => true
  end.

Ltac settle reply :=
  let res := fresh "res" in
  let e := fresh "e" in
  let ok := fresh "ok" in
  let d := fresh "d" in
  let m := fresh "m" in
  destruct reply as [res | e];
  [ destruct res as [ok d m]; destruct ok; destruct d | ].

(** ** The async functions, one event-loop turn at a time

    A call of an async function runs synchronously up to its [await], where
    it hands control back; what is left runs in a later turn, when the
    request has settled.  Between the two, other handlers may run.  Each
    function is cut at its [await] into the part that begins the call and
    the part that settles it; the [try], [catch] and [finally] clauses stay
    around the second part, the first never throws. *)

(** The request goes out. *)
Definition send (m : Method) (path : string) (b : option Body) : M unit :=
  fun w =>
    (Normal tt,
     {| refs := refs w; toasts := toasts w; console := console w;
        sent := sent w ++ [{| method := m; url := path; body := b |}];
        rendered := rendered w |}).

(** The value of a settled promise comes back, or its rejection is thrown. *)
Definition resume {R} (p : Outcome R) : M R :=
  match p with
  | Resolved r => ret r
  | Rejected e => throw e
  end.

(** Control is back at the event loop: the view is rendered. *)
Definition tick (w : World) : World :=
  {| refs := refs w; toasts := toasts w; console := console w;
     sent := sent w; rendered := rendered w ++ [refs w] |}.

(** One turn of the event loop: a task runs until it suspends or ends,
    then the view is rendered. *)
Definition turn (task : M unit) (w : World) : World := tick (snd (task w)).

Definition fetchHKStatus_begin : M unit :=
  send GET "/api/sync/multi-source/hk/status" None.

Definition fetchHKStatus_settle (reply : Outcome (Envelope SyncStatus))
  : M unit :=
  try_catch
    (res <- resume reply ;;
     if success res then set_hkStatus (data res) else ret tt)
    (fun err => console_error "獲取港股狀態失敗:" err).

Definition fetchUSStatus_begin : M unit :=
  send GET "/api/sync/multi-source/us/status" None.

Definition fetchUSStatus_settle (reply : Outcome (Envelope SyncStatus))
  : M unit :=
  try_catch
    (res <- resume reply ;;
     if success res then set_usStatus (data res) else ret tt)
    (fun err => console_error "獲取美股狀態失敗:" err).

(** [onMounted(() => { fetchHKStatus(); fetchUSStatus() })]: both calls are
    begun in the same turn, neither is awaited. *)
Definition onMounted : M unit :=
  fetchHKStatus_begin ;; fetchUSStatus_begin.

Definition syncHK_begin : M unit :=
  set_hkSyncing true ;;
  ElMessage Info "開始同步港股數據..." ;;
  send POST "/api/sync/multi-source/hk/sync" (Some {| force := false |}).

Definition syncUS_begin : M unit :=
  set_usSyncing true ;;
  ElMessage Info "開始同步美股數據..." ;;
  send POST "/api/sync/multi-source/us/sync" (Some {| force := false |}).

Definition syncAll_begin : M unit :=
  set_allSyncing true ;;
  ElMessage Info "開始同步港股和美股數據..." ;;
  send POST "/api/sync/multi-source/foreign/sync" (Some {| force := false |}).

Section Settling.

Variable rt : Js.Runtime.

Definition syncHK_settle (reply : Outcome (Envelope SyncStatus)) : M unit :=
  try_catch_finally
    (res <- resume reply ;;
     if success res then
       set_hkStatus (data res) ;;
       n <- read rt (data res) "total" total ;;
       ElMessage Success ("港股同步完成: " ++ Js.tmpl_number n ++ " 支")
     else
       ElMessage Error ("港股同步失敗: " ++ Js.tmpl_string (res_message res)))
    (fun err =>
       ElMessage Error ("港股同步失敗: " ++ Js.tmpl_string (Js.err_message err)))
    (set_hkSyncing false).

Definition syncUS_settle (reply : Outcome (Envelope SyncStatus)) : M unit :=
  try_catch_finally
    (res <- resume reply ;;
     if success res then
       set_usStatus (data res) ;;
       n <- read rt (data res) "total" total ;;
       ElMessage Success ("美股同步完成: " ++ Js.tmpl_number n ++ " 支")
     else
       ElMessage Error ("美股同步失敗: " ++ Js.tmpl_string (res_message res)))
    (fun err =>
       ElMessage Error ("美股同步失敗: " ++ Js.tmpl_string (Js.err_message err)))
    (set_usSyncing false).

Definition syncAll_settle (reply : Outcome (Envelope ForeignPair)) : M unit :=
  try_catch_finally
    (res <- resume reply ;;
     if success res then
       h <- read rt (data res) "hk" hk ;;
       set_hkStatus h ;;
       u <- read rt (data res) "us" us ;;
       set_usStatus u ;;
       ElMessage Success "港股和美股同步完成"
     else
       ElMessage Error ("同步失敗: " ++ Js.tmpl_string (res_message res)))
    (fun err =>
       ElMessage Error ("同步失敗: " ++ Js.tmpl_string (Js.err_message err)))
    (set_allSyncing false).

End Settling.

(** The terminal toast of a trigger: its level. *)
Definition last_level (w : World) : option Level :=
  match rev (toasts w) with
  | (l, _) :: _ => Some l
  | [] => None
  end.

(** A success envelope that carries its data. *)
Definition complete {D} (reply : Outcome (Envelope D)) : bool :=
  match reply with
  | Resolved res =>
      success res && match data res with Some _ => true | None => false end
  | Rejected _ => false
  end.

(** The flags and the status of the other source, which a call on one
    source has no business with. *)
Definition hk_side (s : State) : option SyncStatus * bool :=
  (hkStatus s, hkSyncing s).

Definition us_side (s : State) : option SyncStatus * bool :=
  (usStatus s, usSyncing s).

Definition flags (s : State) : bool * bool * bool :=
  (hkSyncing s, usSyncing s, allSyncing s).

Definition is_some {A} (x : option A) : bool :=
  match x with
  | Some _ => true
  | None => false
  end.

(** [st === name], where [st] may be [undefined]. *)
Definition is_status (st : option string) (name : string) : bool :=
  match st with
  | Some x => String.eqb x name
  | None => false
  end.

Fixpoint same_command (a b : list string) : bool :=
  match a, b with
  | [], [] => true
  | x :: a', y :: b' => String.eqb x y && same_command a' b'
  | _, _ => false
  end.

(** Whether a command, with these very words, was run. *)
Definition ran (argv : list string) (tr : Sh.Trace) : bool :=
  existsb (same_command argv) tr.

(** A host where the runtime is up but every other command fails. *)
Definition failing_host : Sh.Host :=
  {| Sh.exit_status := fun argv =>
       if same_command argv ["docker"; "info"] then 0 else 1;
     Sh.stdout := fun _ => "" |}.

(** The script returns 1 only if the runtime check failed. *)
Definition exit_1_only_from_check (h : Sh.Host) (self : string) : Prop :=
  snd (Sh.run h self Sh.start_watchdog) = 1 ->
  Sh.exit_status h ["docker"; "info"] <> 0.

(** ** Sample values *)

Definition demo_runtime : Js.Runtime :=
  {| Js.toLocaleString := fun locale t => locale ++ " " ++ t;
     Js.cannotReadProperty := fun name =>
       "Cannot read properties of undefined (reading '" ++ name ++ "')" |}.

Definition demo_status : SyncStatus :=
  {| job := None; status := Some "completed"; total := Some 1200;
     inserted := Some 5; updated := Some 3; errors := None;
     finished_at := Some "2024-01-01T00:00:00Z"; message := None |}.

Definition demo_state : State :=
  {| hkStatus := Some demo_status; usStatus := None;
     hkSyncing := false; usSyncing := false; allSyncing := false |}.

Definition demo_host : Sh.Host :=
  {| Sh.exit_status := fun argv =>
       if list_eq_dec string_dec argv ["docker"; "info"] then 1 else 0;
     Sh.stdout := fun argv =>
       if list_eq_dec string_dec argv ["pwd"] then "/srv/app" else "scripts" |}.

(** ** General facts about the effects *)

Example getStatusText_running : getStatusText (Some "running") = "同步中".
Proof. reflexivity. Qed.

Example string_of_number_1200 : Js.string_of_number 1200 = "1200".
Proof. reflexivity. Qed.

Lemma displayed_same rt (s1 s2 : State) :
  hkStatus s1 = hkStatus s2 -> usStatus s1 = usStatus s2 ->
  displayed rt s1 = displayed rt s2.
Proof.
  intros Hh Hu. unfold displayed, render. simpl. now rewrite Hh, Hu.
Qed.

(** The [finally] clause runs whatever the body and the handler did. *)
Lemma finally_runs body handler fin w :
  exists c w1,
    (match body w with
     | (Throw e, w0) => handler e w0
     | done => done
     end) = (c, w1) /\
    snd (try_catch_finally body handler fin w) = snd (fin w1).
Proof.
  unfold try_catch_finally.
  destruct (match body w with (Throw e, w0) => handler e w0 | done => done end)
    as [c w1].
  exists c, w1. split; [reflexivity|].
  destruct (fin w1) as [[[]|e] w2]; reflexivity.
Qed.

Lemma finally_hkSyncing body handler w :
  hkSyncing (refs (snd (try_catch_finally body handler (set_hkSyncing false) w)))
  = false.
Proof.
  destruct (finally_runs body handler (set_hkSyncing false) w)
    as (c & w1 & _ & ->). reflexivity.
Qed.

Lemma finally_usSyncing body handler w :
  usSyncing (refs (snd (try_catch_finally body handler (set_usSyncing false) w)))
  = false.
Proof.
  destruct (finally_runs body handler (set_usSyncing false) w)
    as (c & w1 & _ & ->). reflexivity.
Qed.

Lemma finally_allSyncing body handler w :
  allSyncing (refs (snd (try_catch_finally body handler (set_allSyncing false) w)))
  = false.
Proof.
  destruct (finally_runs body handler (set_allSyncing false) w)
    as (c & w1 & _ & ->). reflexivity.
Qed.

(** The binding of each button: its [:loading] flag and its [@click]. *)
Lemma button_bindings rt (s : State) :
  let v := render rt s in
  (loading (button (hk_section v)) = hkSyncing s /\
   click (button (hk_section v)) = OnSyncHK) /\
  (loading (button (us_section v)) = usSyncing s /\
   click (button (us_section v)) = OnSyncUS) /\
  (loading (all_button v) = allSyncing s /\
   click (all_button v) = OnSyncAll).
Proof. simpl. repeat split. Qed.


(** ** Trigger operations *)

(** C1: when the backend answers a trigger ([syncHK], [syncUS], [syncAll])
    with a logical failure envelope ([success: false]) carrying message [m],
    both status refs keep the value they had before the call, every render
    pass of the call displays the statuses as before, and an error toast
    made of the operation's prefix followed by [m] is shown. *)
Theorem trigger_logical_failure
  (rt : Js.Runtime) (s : State)
  (d : option SyncStatus) (p : option ForeignPair) (m : string) :
  let unchanged (op : M unit) :=
    hkStatus (refs (after op s)) = hkStatus s /\
    usStatus (refs (after op s)) = usStatus s /\
    Forall (fun f => displayed rt f = displayed rt s) (passes op s) in
  (unchanged (syncHK rt (logical_failure d m)) /\
   toasts (after (syncHK rt (logical_failure d m)) s)
   = [(Info, "開始同步港股數據..."); (Error, "港股同步失敗: " ++ m)]) /\
  (unchanged (syncUS rt (logical_failure d m)) /\
   toasts (after (syncUS rt (logical_failure d m)) s)
   = [(Info, "開始同步美股數據..."); (Error, "美股同步失敗: " ++ m)]) /\
  (unchanged (syncAll rt (logical_failure p m)) /\
   toasts (after (syncAll rt (logical_failure p m)) s)
   = [(Info, "開始同步港股和美股數據..."); (Error, "同步失敗: " ++ m)]).
Proof.
  intros unchanged. subst unchanged. cbv beta.
  repeat split;
    try (repeat constructor; apply displayed_same; reflexivity).
Qed.

(** ** Status fetches *)

(** C2, as stated, fails: a fetch answered with a [success: false] envelope
    keeps the status and shows nothing, but writes nothing to the console
    either, so that failure is not logged. *)
Lemma fetch_logical_failure_not_logged :
  ~ swallowed_and_logged
      (fetchHKStatus
         (Resolved {| success := false; data := None;
                      res_message := Some "rate limited" |}))
      initial.
Proof.
  unfold swallowed_and_logged. intros (_ & _ & _ & Hlog).
  apply Hlog. reflexivity.
Qed.

(** C2, amended: on a failed status fetch ([fetchHKStatus],
    [fetchUSStatus]), be it a rejected request or a [success: false]
    envelope, both status refs keep their previous value (or [null]), every
    render pass displays the statuses as before, and no toast is shown; a
    rejected request is logged once to the console under the operation's
    label, while a [success: false] envelope is dropped without a log
    entry. *)
Theorem fetch_failure_swallowed
  (rt : Js.Runtime) (s : State) (reply : Outcome (Envelope SyncStatus))
  (Hfail : failed reply = true) :
  let swallowed (op : M unit) (label : string) :=
    hkStatus (refs (after op s)) = hkStatus s /\
    usStatus (refs (after op s)) = usStatus s /\
    Forall (fun f => displayed rt f = displayed rt s) (passes op s) /\
    toasts (after op s) = [] /\
    console (after op s)
    = match reply with
      | Rejected e => [(label, e)]
      | Resolved _ => []
      end in
  swallowed (fetchHKStatus reply) "獲取港股狀態失敗:" /\
  swallowed (fetchUSStatus reply) "獲取美股狀態失敗:".
Proof.
  intros swallowed. subst swallowed. cbv beta.
  destruct reply as [[ok d m] | e]; simpl in Hfail.
  - destruct ok; [discriminate|].
    repeat split;
      try (repeat constructor; apply displayed_same; reflexivity).
  - repeat split;
      try (repeat constructor; apply displayed_same; reflexivity).
Qed.

Lemma fetch_failure_swallowed_witness :
  hkStatus
    (refs (after (fetchHKStatus
                    (Rejected {| Js.err_message := Some "Network Error" |}))
                 demo_state))
  = Some demo_status /\
  console
    (after (fetchHKStatus
              (Rejected {| Js.err_message := Some "Network Error" |}))
           demo_state)
  = [("獲取港股狀態失敗:", {| Js.err_message := Some "Network Error" |})].
Proof.
  pose proof (fetch_failure_swallowed demo_runtime demo_state
                (Rejected {| Js.err_message := Some "Network Error" |})
                eq_refl) as [(Hhk & _ & _ & _ & Hlog) _].
  split; [exact Hhk | exact Hlog].
Defined.

(** ** Rendering *)

(** C3: when the status held for a source is [null] or has
    [status = 'never_run'], the [v-if] of the stats block is false, so the
    section has no stats block: no total, inserted or updated counter and,
    since the completion time sits inside that block, no timestamp. *)
Theorem never_run_hides_stats
  (rt : Js.Runtime) (s : State) :
  (never_ran (hkStatus s) = true ->
   show_stats (hkStatus s) = false /\
   market_stats (hk_section (render rt s)) = None) /\
  (never_ran (usStatus s) = true ->
   show_stats (usStatus s) = false /\
   market_stats (us_section (render rt s)) = None).
Proof.
  assert (H : forall st, never_ran st = true ->
                         show_stats st = false /\ render_stats rt st = None).
  { intros [x|]; [|now split].
    unfold never_ran, render_stats, show_stats, Js.strict_neq.
    destruct (status x) as [y|]; [|discriminate].
    intros ->. now split. }
  split; intros Hn; apply H, Hn.
Qed.

Lemma never_run_hides_stats_witness :
  market_stats
    (hk_section
       (render demo_runtime
          {| hkStatus :=
               Some {| job := None; status := Some "never_run";
                       total := Some 7; inserted := Some 1;
                       updated := Some 2; errors := None;
                       finished_at := Some "2024-01-01T00:00:00Z";
                       message := None |};
             usStatus := None; hkSyncing := false; usSyncing := false;
             allSyncing := false |}))
  = None /\
  market_stats (us_section (render demo_runtime initial)) = None.
Proof.
  split.
  - apply (never_run_hides_stats demo_runtime
             {| hkStatus :=
                  Some {| job := None; status := Some "never_run";
                          total := Some 7; inserted := Some 1;
                          updated := Some 2; errors := None;
                          finished_at := Some "2024-01-01T00:00:00Z";
                          message := None |};
                usStatus := None; hkSyncing := false; usSyncing := false;
                allSyncing := false |}).
    reflexivity.
  - apply (never_run_hides_stats demo_runtime initial). reflexivity.
Defined.

(** C4: on a success envelope whose data holds an hk and a us status,
    [syncAll] has exactly two render passes: the one taken while the request
    is pending, which still shows both previous statuses, and the one after
    the call, which shows both new statuses. No pass shows one status
    replaced and the other not. *)
Theorem syncAll_updates_both_together
  (rt : Js.Runtime) (s : State) (h u : SyncStatus) (m : option string) :
  let op := syncAll rt (succeeded (Some {| hk := Some h; us := Some u |}) m) in
  passes op s
  = [ {| hkStatus := hkStatus s; usStatus := usStatus s;
         hkSyncing := hkSyncing s; usSyncing := usSyncing s;
         allSyncing := true |};
      {| hkStatus := Some h; usStatus := Some u;
         hkSyncing := hkSyncing s; usSyncing := usSyncing s;
         allSyncing := false |} ] /\
  Forall (fun f =>
            (hkStatus f = hkStatus s /\ usStatus f = usStatus s) \/
            (hkStatus f = Some h /\ usStatus f = Some u))
         (passes op s).
Proof.
  intros op. subst op. split; [reflexivity|].
  constructor; [left; split; reflexivity|].
  constructor; [right; split; reflexivity|].
  constructor.
Qed.

(** C5: for every trigger operation and every outcome of its request
    (success, logical failure, rejection), the call has two render passes;
    in the first, taken while the request is pending, the operation's flag
    ([hkSyncing], [usSyncing], [allSyncing]) is true, and in the last it is
    false. In every view the flag is the [:loading] value of the button
    whose [@click] is that operation. *)
Theorem syncing_flag_brackets_call
  (rt : Js.Runtime) (s : State)
  (r1 : Outcome (Envelope SyncStatus)) (r2 : Outcome (Envelope ForeignPair)) :
  (exists pending final,
     passes (syncHK rt r1) s = [pending; final] /\
     hkSyncing pending = true /\ hkSyncing final = false /\
     final = refs (after (syncHK rt r1) s) /\
     loading (button (hk_section (render rt pending))) = true /\
     loading (button (hk_section (render rt final))) = false /\
     click (button (hk_section (render rt pending))) = OnSyncHK) /\
  (exists pending final,
     passes (syncUS rt r1) s = [pending; final] /\
     usSyncing pending = true /\ usSyncing final = false /\
     final = refs (after (syncUS rt r1) s) /\
     loading (button (us_section (render rt pending))) = true /\
     loading (button (us_section (render rt final))) = false /\
     click (button (us_section (render rt pending))) = OnSyncUS) /\
  (exists pending final,
     passes (syncAll rt r2) s = [pending; final] /\
     allSyncing pending = true /\ allSyncing final = false /\
     final = refs (after (syncAll rt r2) s) /\
     loading (all_button (render rt pending)) = true /\
     loading (all_button (render rt final)) = false /\
     click (all_button (render rt pending)) = OnSyncAll).
Proof.
  split; [|split].
  - exists {| hkStatus := hkStatus s; usStatus := usStatus s;
              hkSyncing := true; usSyncing := usSyncing s;
              allSyncing := allSyncing s |},
           (refs (after (syncHK rt r1) s)).
    assert (Hoff : hkSyncing (refs (after (syncHK rt r1) s)) = false)
      by apply finally_hkSyncing.
    repeat split; try assumption.
    settle r1; reflexivity.
  - exists {| hkStatus := hkStatus s; usStatus := usStatus s;
              hkSyncing := hkSyncing s; usSyncing := true;
              allSyncing := allSyncing s |},
           (refs (after (syncUS rt r1) s)).
    assert (Hoff : usSyncing (refs (after (syncUS rt r1) s)) = false)
      by apply finally_usSyncing.
    repeat split; try assumption.
    settle r1; reflexivity.
  - exists {| hkStatus := hkStatus s; usStatus := usStatus s;
              hkSyncing := hkSyncing s; usSyncing := usSyncing s;
              allSyncing := true |},
           (refs (after (syncAll rt r2) s)).
    assert (Hoff : allSyncing (refs (after (syncAll rt r2) s)) = false)
      by apply finally_allSyncing.
    repeat split; try assumption.
    settle r2; reflexivity.
Qed.

(** C6: each trigger operation sends exactly one request, a POST to the
    endpoint of its source with body [{ force: false }], whatever the
    outcome; and when the envelope says success, the status in the response
    ([data] for [syncHK] and [syncUS], the [hk] and [us] members of [data]
    for [syncAll]) replaces the status held and displayed for that source,
    the other source being left alone by the single-source triggers. *)
Theorem trigger_request_and_success
  (rt : Js.Runtime) (s : State)
  (r1 : Outcome (Envelope SyncStatus)) (r2 : Outcome (Envelope ForeignPair))
  (d : option SyncStatus) (p : ForeignPair) (m : option string) :
  let post path :=
    [{| method := POST; url := path; body := Some {| force := false |} |}] in
  let shown st := (render_tag st, render_stats rt st) in
  (sent (after (syncHK rt r1) s) = post "/api/sync/multi-source/hk/sync" /\
   sent (after (syncUS rt r1) s) = post "/api/sync/multi-source/us/sync" /\
   sent (after (syncAll rt r2) s) = post "/api/sync/multi-source/foreign/sync") /\
  (hkStatus (refs (after (syncHK rt (succeeded d m)) s)) = d /\
   displayed rt (refs (after (syncHK rt (succeeded d m)) s))
   = (shown d, shown (usStatus s))) /\
  (usStatus (refs (after (syncUS rt (succeeded d m)) s)) = d /\
   displayed rt (refs (after (syncUS rt (succeeded d m)) s))
   = (shown (hkStatus s), shown d)) /\
  (hkStatus (refs (after (syncAll rt (succeeded (Some p) m)) s)) = hk p /\
   usStatus (refs (after (syncAll rt (succeeded (Some p) m)) s)) = us p /\
   displayed rt (refs (after (syncAll rt (succeeded (Some p) m)) s))
   = (shown (hk p), shown (us p))).
Proof.
  intros post shown. subst post shown. cbv beta.
  split; [|split; [|split]].
  - repeat split; [settle r1 | settle r1 | settle r2]; reflexivity.
  - destruct d; split; reflexivity.
  - destruct d; split; reflexivity.
  - repeat split.
Qed.

(** C7: a fetch of the hk status answered with
    [{success:true, data:{status:"completed", total:1200, inserted:5,
    updated:3, finished_at:"2024-01-01T00:00:00Z"}}] leaves a view whose hk
    tag reads '已完成' with type 'success', whose counters read 1200, 5 with
    the [success] class (the success colour) and 3 with the [primary] class
    (the primary colour), and whose time line is the [zh-TW] locale string
    of the timestamp. *)
Theorem fetch_completed_scenario (rt : Js.Runtime) (s : State) :
  let data :=
    {| job := None; status := Some "completed"; total := Some 1200;
       inserted := Some 5; updated := Some 3; errors := None;
       finished_at := Some "2024-01-01T00:00:00Z"; message := None |} in
  let w := after (fetchHKStatus (succeeded (Some data) None)) s in
  let section := hk_section (render rt (refs w)) in
  sent w = [{| method := GET; url := "/api/sync/multi-source/hk/status";
               body := None |}] /\
  hkStatus (refs w) = Some data /\
  tag section = {| tag_type := "success"; tag_text := "已完成" |} /\
  market_stats section
  = Some {| stat_total := {| classes := ["stat-value"]; shown := "1200" |};
            stat_inserted :=
              {| classes := ["stat-value"; "success"]; shown := "5" |};
            stat_updated :=
              {| classes := ["stat-value"; "primary"]; shown := "3" |};
            sync_time :=
              Some ("完成時間: "
                    ++ Js.toLocaleString rt "zh-TW" "2024-01-01T00:00:00Z") |} /\
  option_map (fun ms => stat_value_color (stat_total ms))
             (market_stats section)
  = Some None /\
  option_map (fun ms => stat_value_color (stat_inserted ms))
             (market_stats section)
  = Some (Some "var(--el-color-success)") /\
  option_map (fun ms => stat_value_color (stat_updated ms))
             (market_stats section)
  = Some (Some "var(--el-color-primary)") /\
  toasts w = [] /\ console w = [].
Proof.
  intros data w section. subst data w section.
  repeat match goal with |- _ /\ _ => split end; reflexivity.
Qed.

(** C9: [getStatusText] and [getStatusType] are defined on every input:
    an absent status and every string other than 'completed', 'running',
    'failed' and 'never_run' give the text '未知' and the type 'info', and
    'never_run' gives the type 'info' as well. *)
Theorem status_mappings_default (st : option string)
  (Hother : forall x, st = Some x -> ~ In x known_statuses) :
  getStatusText st = "未知" /\ getStatusType st = "info" /\
  getStatusType (Some "never_run") = "info" /\
  getStatusText (Some "unknown") = "未知" /\
  getStatusType (Some "unknown") = "info".
Proof.
  assert (Hfour : forall x, st = Some x ->
            String.eqb x "completed" = false /\
            String.eqb x "running" = false /\
            String.eqb x "failed" = false /\
            String.eqb x "never_run" = false).
  { intros x Hx. specialize (Hother x Hx). unfold known_statuses in Hother.
    repeat split; apply String.eqb_neq; intros ->; apply Hother;
      simpl; tauto. }
  repeat split.
  - destruct st as [x|]; [|reflexivity].
    destruct (Hfour x eq_refl) as (H1 & H2 & H3 & H4).
    unfold getStatusText. now rewrite H1, H2, H3, H4.
  - destruct st as [x|]; [|reflexivity].
    destruct (Hfour x eq_refl) as (H1 & H2 & H3 & H4).
    unfold getStatusType. now rewrite H1, H2, H3, H4.
Qed.

Lemma status_mappings_default_witness :
  getStatusText (Some "paused") = "未知" /\
  getStatusType (Some "paused") = "info".
Proof.
  assert (Hother : forall x, Some "paused" = Some x -> ~ In x known_statuses).
  { intros x Hx. injection Hx as <-. simpl.
    intros [H|[H|[H|[H|[]]]]]; discriminate H. }
  destruct (status_mappings_default (Some "paused") Hother)
    as (Htext & Htype & _).
  exact (conj Htext Htype).
Defined.

(** C10: whenever the stats block is shown (the status is an object whose
    [status] is not 'never_run'), the block exists and each of its three
    counters shows [n || 0]: 0 when the field is absent or zero, the number
    otherwise; the time line is there exactly when [finished_at] is a
    non-empty string; and [formatTime] gives the empty string for an absent
    or empty input. No field of the status has to be present. *)
Theorem rendering_total_on_partial_status
  (rt : Js.Runtime) (x : SyncStatus)
  (Hshow : show_stats (Some x) = true) :
  (exists ms,
     render_stats rt (Some x) = Some ms /\
     shown (stat_total ms) = Js.string_of_number (Js.or_zero (total x)) /\
     shown (stat_inserted ms) = Js.string_of_number (Js.or_zero (inserted x)) /\
     shown (stat_updated ms) = Js.string_of_number (Js.or_zero (updated x)) /\
     (falsy_counter (total x) = true -> shown (stat_total ms) = "0") /\
     (falsy_counter (inserted x) = true -> shown (stat_inserted ms) = "0") /\
     (falsy_counter (updated x) = true -> shown (stat_updated ms) = "0") /\
     (Js.truthy_string (finished_at x) = false -> sync_time ms = None)) /\
  formatTime rt None = "" /\
  formatTime rt (Some "") = "".
Proof.
  assert (Hzero : forall n, falsy_counter n = true ->
                            Js.string_of_number (Js.or_zero n) = "0").
  { intros [z|] Hz; [|reflexivity].
    simpl in Hz. apply Z.eqb_eq in Hz. now subst z. }
  split; [|split; reflexivity].
  unfold render_stats. rewrite Hshow.
  eexists. split; [reflexivity|]. simpl.
  repeat split; try (intros Hf; now apply Hzero).
  unfold show_time. now intros ->.
Qed.

Lemma rendering_total_on_partial_status_witness :
  exists ms,
    render_stats demo_runtime
      (Some {| job := None; status := Some "failed"; total := None;
               inserted := Some 0; updated := None; errors := None;
               finished_at := None; message := None |})
    = Some ms /\
    shown (stat_total ms) = "0" /\
    shown (stat_inserted ms) = "0" /\
    shown (stat_updated ms) = "0" /\
    sync_time ms = None.
Proof.
  destruct (rendering_total_on_partial_status demo_runtime
              {| job := None; status := Some "failed"; total := None;
                 inserted := Some 0; updated := None; errors := None;
                 finished_at := None; message := None |} eq_refl)
    as [(ms & Hms & _ & _ & _ & Ht & Hi & Hu & Htime) _].
  exists ms. split; [exact Hms|].
  split; [apply Ht; reflexivity|].
  split; [apply Hi; reflexivity|].
  split; [apply Hu; reflexivity|].
  apply Htime. reflexivity.
Defined.

(** ** The start script *)

(** C8, as stated, fails: exit code 1 does not come from the runtime check
    alone. The watchdog is the last command of the script, so its status is
    the script's: on a host where [docker info] succeeds and the watchdog
    exits with 1, the script returns 1 although the check passed. *)
Lemma start_script_exit_1_with_docker_up :
  Sh.exit_status failing_host ["docker"; "info"] = 0 /\
  snd (Sh.run failing_host "scripts/start.sh" Sh.start_watchdog) = 1 /\
  Sh.left_by_exit failing_host "scripts/start.sh" Sh.start_watchdog = false /\
  ~ exit_1_only_from_check failing_host "scripts/start.sh".
Proof.
  split; [reflexivity|]. split; [reflexivity|]. split; [reflexivity|].
  unfold exit_1_only_from_check. intros Honly.
  apply Honly; reflexivity.
Qed.

(** C8, amended: the script first checks the container runtime with
    [docker info]. If that fails it prints a message and exits with code 1,
    having started nothing. Otherwise it runs, in this order,
    [docker-compose up -d] for the two services [mongodb] and [redis],
    [sleep 3], the activation of the virtual environment and the watchdog,
    and returns the watchdog's exit status, whatever it is (1 included).
    The run ends at an [exit] of the script exactly when the check fails,
    and the only [exit] written in the script is that [exit 1]. *)
Theorem start_script_steps (h : Sh.Host) (self : string) :
  Sh.run h self Sh.start_watchdog
  = (if Sh.exit_status h ["docker"; "info"] =? 0
     then
       (Sh.prologue h self ++
        [ ["echo"; "🐳 啟動 Docker 服務 (MongoDB, Redis)..."];
          ["docker-compose"; "up"; "-d"; "mongodb"; "redis"];
          ["sleep"; "3"];
          ["echo"; "🚀 啟動 Watchdog..."];
          ["source"; ".venv/bin/activate"];
          ["python"; "scripts/watchdog.py"] ],
        Sh.exit_status h ["python"; "scripts/watchdog.py"])
     else
       (Sh.prologue h self ++
        [ ["echo"; "❌ Docker 未運行！請先啟動 Docker Desktop"] ],
        1))%list /\
  Sh.left_by_exit h self Sh.start_watchdog
  = negb (Sh.exit_status h ["docker"; "info"] =? 0) /\
  Sh.exits_of Sh.start_watchdog = [1].
Proof.
  split; [|split; [|reflexivity]].
  - cbv -[Z.eqb Sh.exit_status Sh.stdout].
    destruct (Sh.exit_status h ["docker"; "info"] =? 0); reflexivity.
  - cbv -[Z.eqb Sh.exit_status Sh.stdout].
    destruct (Sh.exit_status h ["docker"; "info"] =? 0); reflexivity.
Qed.

(** The script on a host where the runtime check fails. *)
Example start_script_without_docker :
  snd (Sh.run demo_host "scripts/start.sh" Sh.start_watchdog) = 1 /\
  ~ In ["python"; "scripts/watchdog.py"]
       (fst (Sh.run demo_host "scripts/start.sh" Sh.start_watchdog)).
Proof.
  split; [reflexivity|].
  vm_compute. intros H.
  repeat (destruct H as [H|H]; [discriminate H|]). exact H.
Qed.

(** ** The calls, cut at their await *)

(** Running a call in one go is beginning it, rendering, and settling it. *)
Lemma fetchHKStatus_cut reply w :
  fetchHKStatus reply w = fetchHKStatus_settle reply (turn fetchHKStatus_begin w).
Proof. destruct reply as [[[] d m]|e]; reflexivity. Qed.

Lemma fetchUSStatus_cut reply w :
  fetchUSStatus reply w = fetchUSStatus_settle reply (turn fetchUSStatus_begin w).
Proof. destruct reply as [[[] d m]|e]; reflexivity. Qed.

Lemma syncHK_cut rt reply w :
  syncHK rt reply w = syncHK_settle rt reply (turn syncHK_begin w).
Proof. settle reply; reflexivity. Qed.

Lemma syncUS_cut rt reply w :
  syncUS rt reply w = syncUS_settle rt reply (turn syncUS_begin w).
Proof. settle reply; reflexivity. Qed.

Lemma syncAll_cut rt reply w :
  syncAll rt reply w = syncAll_settle rt reply (turn syncAll_begin w).
Proof. settle reply; reflexivity. Qed.

(** ** More on the status fetches *)

(** X1: whatever the outcome, a status fetch sends one GET without a body
    to the endpoint of its source, shows no toast, leaves the three flags
    and the other source's status alone, writes to the console only when
    the request was rejected, and holds afterwards the response's data if
    the envelope says success and the previous status otherwise. *)
Theorem fetch_effects (s : State) (reply : Outcome (Envelope SyncStatus)) :
  let get path := [{| method := GET; url := path; body := None |}] in
  let held (old : option SyncStatus) :=
    match reply with
    | Resolved res => if success res then data res else old
    | Rejected _ => old
    end in
  let logged (label : string) :=
    match reply with
    | Resolved _ => []
    | Rejected e => [(label, e)]
    end in
  (sent (after (fetchHKStatus reply) s) = get "/api/sync/multi-source/hk/status" /\
   toasts (after (fetchHKStatus reply) s) = [] /\
   console (after (fetchHKStatus reply) s) = logged "獲取港股狀態失敗:" /\
   flags (refs (after (fetchHKStatus reply) s)) = flags s /\
   usStatus (refs (after (fetchHKStatus reply) s)) = usStatus s /\
   hkStatus (refs (after (fetchHKStatus reply) s)) = held (hkStatus s)) /\
  (sent (after (fetchUSStatus reply) s) = get "/api/sync/multi-source/us/status" /\
   toasts (after (fetchUSStatus reply) s) = [] /\
   console (after (fetchUSStatus reply) s) = logged "獲取美股狀態失敗:" /\
   flags (refs (after (fetchUSStatus reply) s)) = flags s /\
   hkStatus (refs (after (fetchUSStatus reply) s)) = hkStatus s /\
   usStatus (refs (after (fetchUSStatus reply) s)) = held (usStatus s)).
Proof.
  intros get held logged. subst get held logged. cbv beta.
  destruct reply as [[ok d m]|e].
  - destruct ok; repeat split.
  - repeat split.
Qed.

(** X2: a success envelope without [data] makes a fetch drop the status it
    held: the ref becomes empty whatever it was, the tag falls back to
    '未知' with type 'info', and the stats block is gone. *)
Theorem fetch_success_without_data_clears
  (rt : Js.Runtime) (s : State) (m : option string) :
  let unknown := {| tag_type := "info"; tag_text := "未知" |} in
  (hkStatus (refs (after (fetchHKStatus (succeeded None m)) s)) = None /\
   displayed rt (refs (after (fetchHKStatus (succeeded None m)) s))
   = ((unknown, None), snd (displayed rt s))) /\
  (usStatus (refs (after (fetchUSStatus (succeeded None m)) s)) = None /\
   displayed rt (refs (after (fetchUSStatus (succeeded None m)) s))
   = (fst (displayed rt s), (unknown, None))).
Proof. repeat split. Qed.

(** ** More on the triggers *)

(** X3: when the request of a trigger is rejected, both status refs and
    every render pass's displayed statuses are as before the call, and the
    toasts are the info toast followed by one error toast whose text is the
    operation's prefix and the error's message ('undefined' when the error
    has none). *)
Theorem trigger_rejected (rt : Js.Runtime) (s : State) (e : Js.Error) :
  let unchanged (op : M unit) :=
    hkStatus (refs (after op s)) = hkStatus s /\
    usStatus (refs (after op s)) = usStatus s /\
    Forall (fun f => displayed rt f = displayed rt s) (passes op s) in
  let text := Js.tmpl_string (Js.err_message e) in
  (unchanged (syncHK rt (Rejected e)) /\
   toasts (after (syncHK rt (Rejected e)) s)
   = [(Info, "開始同步港股數據..."); (Error, "港股同步失敗: " ++ text)]) /\
  (unchanged (syncUS rt (Rejected e)) /\
   toasts (after (syncUS rt (Rejected e)) s)
   = [(Info, "開始同步美股數據..."); (Error, "美股同步失敗: " ++ text)]) /\
  (unchanged (syncAll rt (Rejected e)) /\
   toasts (after (syncAll rt (Rejected e)) s)
   = [(Info, "開始同步港股和美股數據..."); (Error, "同步失敗: " ++ text)]).
Proof.
  intros unchanged text. subst unchanged text. cbv beta.
  repeat split;
    try (repeat constructor; apply displayed_same; reflexivity).
Qed.

(** X4: every call of a trigger shows exactly two toasts, the info toast
    first; the second is a success toast when the envelope says success and
    carries its data, and an error toast in every other case. *)
Theorem trigger_two_toasts
  (rt : Js.Runtime) (s : State)
  (r1 : Outcome (Envelope SyncStatus)) (r2 : Outcome (Envelope ForeignPair)) :
  let verdict {D} (r : Outcome (Envelope D)) :=
    Some (if complete r then Success else Error) in
  (length (toasts (after (syncHK rt r1) s)) = 2%nat /\
   hd_error (toasts (after (syncHK rt r1) s))
   = Some (Info, "開始同步港股數據...") /\
   last_level (after (syncHK rt r1) s) = verdict r1) /\
  (length (toasts (after (syncUS rt r1) s)) = 2%nat /\
   hd_error (toasts (after (syncUS rt r1) s))
   = Some (Info, "開始同步美股數據...") /\
   last_level (after (syncUS rt r1) s) = verdict r1) /\
  (length (toasts (after (syncAll rt r2) s)) = 2%nat /\
   hd_error (toasts (after (syncAll rt r2) s))
   = Some (Info, "開始同步港股和美股數據...") /\
   last_level (after (syncAll rt r2) s) = verdict r2).
Proof.
  intros verdict. subst verdict. cbv beta.
  split; [|split].
  - settle r1; repeat split.
  - settle r1; repeat split.
  - settle r2; repeat split.
Qed.

(** X5: a success envelope without [data]. [syncHK] and [syncUS] have
    already emptied their status ref when reading [data.total] throws, and
    end with an error toast carrying the engine's message; [syncAll] throws
    on [data.hk] before any assignment, so both refs keep their value. When
    [data] is there but lacks a member, [syncAll] empties that source's ref
    and still reports success. *)
Theorem trigger_success_without_data
  (rt : Js.Runtime) (s : State) (m : option string) (h : option SyncStatus) :
  (hkStatus (refs (after (syncHK rt (succeeded None m)) s)) = None /\
   toasts (after (syncHK rt (succeeded None m)) s)
   = [(Info, "開始同步港股數據...");
      (Error, "港股同步失敗: " ++ Js.cannotReadProperty rt "total")]) /\
  (usStatus (refs (after (syncUS rt (succeeded None m)) s)) = None /\
   toasts (after (syncUS rt (succeeded None m)) s)
   = [(Info, "開始同步美股數據...");
      (Error, "美股同步失敗: " ++ Js.cannotReadProperty rt "total")]) /\
  (hkStatus (refs (after (syncAll rt (succeeded None m)) s)) = hkStatus s /\
   usStatus (refs (after (syncAll rt (succeeded None m)) s)) = usStatus s /\
   toasts (after (syncAll rt (succeeded None m)) s)
   = [(Info, "開始同步港股和美股數據...");
      (Error, "同步失敗: " ++ Js.cannotReadProperty rt "hk")]) /\
  (hkStatus
     (refs (after (syncAll rt (succeeded (Some {| hk := h; us := None |}) m)) s))
   = h /\
   usStatus
     (refs (after (syncAll rt (succeeded (Some {| hk := h; us := None |}) m)) s))
   = None /\
   toasts (after (syncAll rt (succeeded (Some {| hk := h; us := None |}) m)) s)
   = [(Info, "開始同步港股和美股數據..."); (Success, "港股和美股同步完成")]).
Proof. repeat split. Qed.

(** X6: a trigger touches nothing but its own flag and the statuses it
    syncs. In every render pass of [syncHK], for every outcome, the us
    status, [usSyncing] and [allSyncing] are as before the call; likewise
    for [syncUS] with the hk side; and [syncAll] leaves [hkSyncing] and
    [usSyncing] as they were, so the single-source buttons are not put in
    the loading state by it. *)
Theorem trigger_frame
  (rt : Js.Runtime) (s : State)
  (r1 : Outcome (Envelope SyncStatus)) (r2 : Outcome (Envelope ForeignPair)) :
  Forall (fun f => us_side f = us_side s /\ allSyncing f = allSyncing s)
         (passes (syncHK rt r1) s) /\
  Forall (fun f => hk_side f = hk_side s /\ allSyncing f = allSyncing s)
         (passes (syncUS rt r1) s) /\
  Forall (fun f =>
            hkSyncing f = hkSyncing s /\ usSyncing f = usSyncing s /\
            loading (button (hk_section (render rt f))) = hkSyncing s /\
            loading (button (us_section (render rt f))) = usSyncing s)
         (passes (syncAll rt r2) s).
Proof.
  split; [|split].
  - settle r1; repeat constructor.
  - settle r1; repeat constructor.
  - settle r2; repeat constructor.
Qed.

(** ** Calls in flight together *)

(** Settling a fetch of one source and a fetch of the other commute, as far
    as the refs, the toasts and the requests go. *)
Lemma fetch_settles_commute r1 r2 w :
  let a := turn (fetchUSStatus_settle r2) (turn (fetchHKStatus_settle r1) w) in
  let b := turn (fetchHKStatus_settle r1) (turn (fetchUSStatus_settle r2) w) in
  refs a = refs b /\ toasts a = toasts b /\ sent a = sent b.
Proof.
  destruct r1 as [[[] d1 m1]|e1]; destruct r2 as [[[] d2 m2]|e2];
    repeat split.
Qed.

(** X7: mounting the component sends the hk status request and then the us
    status request in one turn, before either has settled, and changes no
    ref; and once both have settled the refs and the toasts are the same
    whichever reply came first: the hk status is decided by the hk reply
    alone and the us status by the us reply alone. *)
Theorem mount_fetches_both
  (s : State) (r1 r2 : Outcome (Envelope SyncStatus)) :
  let held (r : Outcome (Envelope SyncStatus)) (old : option SyncStatus) :=
    match r with
    | Resolved res => if success res then data res else old
    | Rejected _ => old
    end in
  let mounted := turn onMounted (boot s) in
  let hk_first :=
    turn (fetchUSStatus_settle r2) (turn (fetchHKStatus_settle r1) mounted) in
  let us_first :=
    turn (fetchHKStatus_settle r1) (turn (fetchUSStatus_settle r2) mounted) in
  sent mounted
  = [ {| method := GET; url := "/api/sync/multi-source/hk/status";
         body := None |};
      {| method := GET; url := "/api/sync/multi-source/us/status";
         body := None |} ] /\
  refs mounted = s /\
  rendered mounted = [s] /\
  refs hk_first = refs us_first /\
  toasts hk_first = [] /\ toasts us_first = [] /\
  sent hk_first = sent mounted /\ sent us_first = sent mounted /\
  hkStatus (refs hk_first) = held r1 (hkStatus s) /\
  usStatus (refs hk_first) = held r2 (usStatus s) /\
  flags (refs hk_first) = flags s.
Proof.
  intros held mounted hk_first us_first.
  subst held mounted hk_first us_first. cbv beta.
  destruct (fetch_settles_commute r1 r2 (turn onMounted (boot s)))
    as (Hrefs & _ & _).
  repeat match goal with |- _ /\ _ => split end;
    try exact Hrefs; try reflexivity;
    destruct r1 as [[[] d1 m1]|e1]; destruct r2 as [[[] d2 m2]|e2];
    reflexivity.
Qed.

(** X8: nothing orders the replies of calls in flight together. With a
    trigger-all and an hk trigger both begun from the same view (the first
    does not put the hk button in the loading state), the hk status held in
    the end is the one of the reply that settled last: the pair's member
    when the single reply came first, the single reply's data when the pair
    came first. *)
Theorem overlapping_triggers_last_reply_wins
  (rt : Js.Runtime) (s : State)
  (a b : SyncStatus) (u : option SyncStatus) (m1 m2 : option string) :
  let single := succeeded (Some a) m1 in
  let pair := succeeded (Some {| hk := Some b; us := u |}) m2 in
  let begun := turn syncHK_begin (turn syncAll_begin (boot s)) in
  let single_first :=
    turn (syncAll_settle rt pair) (turn (syncHK_settle rt single) begun) in
  let pair_first :=
    turn (syncHK_settle rt single) (turn (syncAll_settle rt pair) begun) in
  loading (button (hk_section (render rt (refs (turn syncAll_begin (boot s))))))
  = hkSyncing s /\
  sent begun
  = [ {| method := POST; url := "/api/sync/multi-source/foreign/sync";
         body := Some {| force := false |} |};
      {| method := POST; url := "/api/sync/multi-source/hk/sync";
         body := Some {| force := false |} |} ] /\
  hkStatus (refs single_first) = Some b /\
  hkStatus (refs pair_first) = Some a /\
  usStatus (refs single_first) = u /\
  usStatus (refs pair_first) = u.
Proof. repeat split. Qed.

(** X9: the flags of calls in flight together are independent. With a
    trigger-all and an hk trigger both begun, both flags are true; whatever
    the outcomes, settling one of the two calls resets its own flag and
    leaves the other's true, and once both have settled both are false.
    [usSyncing] is as before throughout. *)
Theorem overlapping_triggers_flags
  (rt : Js.Runtime) (s : State)
  (r1 : Outcome (Envelope SyncStatus)) (r2 : Outcome (Envelope ForeignPair)) :
  let begun := turn syncHK_begin (turn syncAll_begin (boot s)) in
  let hk_done := turn (syncHK_settle rt r1) begun in
  let all_done := turn (syncAll_settle rt r2) begun in
  flags (refs begun) = (true, usSyncing s, true) /\
  flags (refs hk_done) = (false, usSyncing s, true) /\
  flags (refs all_done) = (true, usSyncing s, false) /\
  flags (refs (turn (syncAll_settle rt r2) hk_done))
  = (false, usSyncing s, false) /\
  flags (refs (turn (syncHK_settle rt r1) all_done))
  = (false, usSyncing s, false).
Proof.
  intros begun hk_done all_done. subst begun hk_done all_done.
  settle r1; settle r2; repeat split.
Qed.

(** X10: the two single-source triggers succeeding one after the other
    leave the same statuses held and displayed as one successful
    trigger-all carrying the two statuses as its pair. *)
Theorem single_triggers_agree_with_trigger_all
  (rt : Js.Runtime) (s : State) (a b : SyncStatus) (m1 m2 m : option string) :
  let one_by_one :=
    refs (after (syncHK rt (succeeded (Some a) m1) ;;
                 syncUS rt (succeeded (Some b) m2)) s) in
  let at_once :=
    refs (after (syncAll rt (succeeded (Some {| hk := Some a; us := Some b |}) m))
                s) in
  hkStatus one_by_one = hkStatus at_once /\
  usStatus one_by_one = usStatus at_once /\
  displayed rt one_by_one = displayed rt at_once.
Proof. repeat split. Qed.

(** ** More on the status helpers and the template *)

(** X11: the tag text tells the statuses apart: each of the four known
    statuses has a text of its own, given for that status only, and '未知'
    is the text exactly when the status is absent or none of the four. *)
Theorem status_text_identifies (st : option string) :
  String.eqb (getStatusText st) "已完成" = is_status st "completed" /\
  String.eqb (getStatusText st) "同步中" = is_status st "running" /\
  String.eqb (getStatusText st) "失敗" = is_status st "failed" /\
  String.eqb (getStatusText st) "未執行" = is_status st "never_run" /\
  String.eqb (getStatusText st) "未知"
  = negb (existsb (is_status st) known_statuses).
Proof.
  destruct st as [x|]; [|repeat split].
  unfold getStatusText, known_statuses, is_status, existsb.
  destruct (String.eqb_spec x "completed") as [->|_]; [repeat split|].
  destruct (String.eqb_spec x "running") as [->|_]; [repeat split|].
  destruct (String.eqb_spec x "failed") as [->|_]; [repeat split|].
  destruct (String.eqb_spec x "never_run") as [->|_]; repeat split.
Qed.

(** X12: the tag type is 'success' for 'completed' only, 'warning' for
    'running' only, 'danger' for 'failed' only, and 'info' for everything
    else, so that 'never_run' and an unknown or absent status share one
    type and differ by their text alone. *)
Theorem status_type_identifies (st : option string) :
  String.eqb (getStatusType st) "success" = is_status st "completed" /\
  String.eqb (getStatusType st) "warning" = is_status st "running" /\
  String.eqb (getStatusType st) "danger" = is_status st "failed" /\
  String.eqb (getStatusType st) "info"
  = negb (is_status st "completed" || is_status st "running"
          || is_status st "failed").
Proof.
  destruct st as [x|]; [|repeat split].
  unfold getStatusType, is_status.
  destruct (String.eqb_spec x "completed") as [->|_]; [repeat split|].
  destruct (String.eqb_spec x "running") as [->|_]; [repeat split|].
  destruct (String.eqb_spec x "failed") as [->|_]; [repeat split|].
  destruct (String.eqb_spec x "never_run") as [->|_]; repeat split.
Qed.

(** X13: a section has its stats block exactly when the status held is an
    object whose [status] is not 'never_run', be that status absent,
    unknown, 'running' or 'failed'; and within the block the completion
    line is there exactly when [finished_at] is a non-empty string, reading
    the label followed by the [zh-TW] locale string of that value. *)
Theorem stats_block_shown_iff (rt : Js.Runtime) (st : option SyncStatus) :
  is_some (render_stats rt st) = negb (never_ran st) /\
  option_map sync_time (render_stats rt st)
  = match st with
    | Some x =>
        if never_ran st then None
        else Some match finished_at x with
                  | Some t =>
                      if String.eqb t "" then None
                      else Some ("完成時間: " ++ Js.toLocaleString rt "zh-TW" t)
                  | None => None
                  end
    | None => None
    end.
Proof.
  destruct st as [x|]; [|split; reflexivity].
  unfold render_stats, show_stats, never_ran, Js.strict_neq, show_time,
    formatTime, Js.truthy_string.
  destruct (status x) as [y|].
  - destruct (String.eqb y "never_run"); simpl; [split; reflexivity|].
    destruct (finished_at x) as [t|]; [|split; reflexivity].
    destruct (String.eqb t ""); split; reflexivity.
  - simpl. destruct (finished_at x) as [t|]; [|split; reflexivity].
    destruct (String.eqb t ""); split; reflexivity.
Qed.

(** ** More on the start script *)

(** What the script runs and returns, on any host. *)
Lemma start_watchdog_run (h : Sh.Host) (self : string) :
  Sh.run h self Sh.start_watchdog
  = (if Sh.exit_status h ["docker"; "info"] =? 0
     then
       (Sh.prologue h self ++
        [ ["echo"; "🐳 啟動 Docker 服務 (MongoDB, Redis)..."];
          ["docker-compose"; "up"; "-d"; "mongodb"; "redis"];
          ["sleep"; "3"];
          ["echo"; "🚀 啟動 Watchdog..."];
          ["source"; ".venv/bin/activate"];
          ["python"; "scripts/watchdog.py"] ],
        Sh.exit_status h ["python"; "scripts/watchdog.py"])
     else
       (Sh.prologue h self ++
        [ ["echo"; "❌ Docker 未運行！請先啟動 Docker Desktop"] ],
        1))%list.
Proof.
  cbv -[Z.eqb Sh.exit_status Sh.stdout].
  destruct (Sh.exit_status h ["docker"; "info"] =? 0); reflexivity.
Qed.

(** X14: the script stops for nothing but the runtime check. On every
    host, whatever the exit statuses of [cd], [docker-compose up], [sleep]
    and [source], the services are brought up, the virtual environment is
    activated and the watchdog is started exactly when [docker info]
    succeeds; and in that case the script returns the watchdog's exit
    status, also when the services failed to start. *)
Theorem start_script_only_gate (h : Sh.Host) (self : string) :
  let up := Sh.exit_status h ["docker"; "info"] =? 0 in
  let tr := fst (Sh.run h self Sh.start_watchdog) in
  ran ["docker"; "info"] tr = true /\
  ran ["docker-compose"; "up"; "-d"; "mongodb"; "redis"] tr = up /\
  ran ["sleep"; "3"] tr = up /\
  ran ["source"; ".venv/bin/activate"] tr = up /\
  ran ["python"; "scripts/watchdog.py"] tr = up /\
  snd (Sh.run h self Sh.start_watchdog)
  = if up then Sh.exit_status h ["python"; "scripts/watchdog.py"] else 1.
Proof.
  intros up tr. subst up tr. rewrite start_watchdog_run.
  destruct (Sh.exit_status h ["docker"; "info"] =? 0); repeat split.
Qed.

(** The script on a host where the runtime is up and all else fails. *)
Example start_script_through_failures :
  ran ["python"; "scripts/watchdog.py"]
      (fst (Sh.run failing_host "scripts/start.sh" Sh.start_watchdog)) = true /\
  snd (Sh.run failing_host "scripts/start.sh" Sh.start_watchdog) = 1.
Proof. split; reflexivity. Qed.

(** X15: a status fetch still in flight can undo a trigger. With the hk
    fetch of the mount and an hk trigger both begun, a successful fetch
    reply that settles after the trigger's success replaces the freshly
    synced status by the fetched one, while in the other order the synced
    status stays; the fetch adds no toast in either order. *)
Theorem late_fetch_overwrites_trigger
  (rt : Js.Runtime) (s : State)
  (fetched synced : SyncStatus) (m1 m2 : option string) :
  let begun := turn syncHK_begin (turn onMounted (boot s)) in
  let fetch_last :=
    turn (fetchHKStatus_settle (succeeded (Some fetched) m1))
         (turn (syncHK_settle rt (succeeded (Some synced) m2)) begun) in
  let fetch_first :=
    turn (syncHK_settle rt (succeeded (Some synced) m2))
         (turn (fetchHKStatus_settle (succeeded (Some fetched) m1)) begun) in
  hkStatus (refs fetch_last) = Some fetched /\
  hkStatus (refs fetch_first) = Some synced /\
  toasts fetch_last = toasts fetch_first /\
  toasts fetch_last
  = [(Info, "開始同步港股數據...");
     (Success, "港股同步完成: " ++ Js.tmpl_number (total synced) ++ " 支")] /\
  flags (refs fetch_last) = (false, usSyncing s, allSyncing s) /\
  flags (refs fetch_first) = (false, usSyncing s, allSyncing s).
Proof. repeat split. Qed.
